(** * Audio utilities: a shallow embedding of the four command-line scripts

    The repository holds four independent Python scripts under
    [src/Utility]: [audio_convertor.py], [audio_details.py],
    [audio_splitter.py] and [stt_error_rate.py].  Each one is a function
    plus a [__main__] block that parses flags, calls the function inside
    [try/except Exception] and exits.

    Conventions of the embedding:
    - Python [int] is [Z]; Python [float] is an exact rational [Q]
      (rounding of binary64 arithmetic is not modelled);
    - Python [str] is [string];
    - a raised exception is the [Raise] branch of [result];
    - the collaborators (pydub, the file system, the clock, jiwer) are the
      fields of an environment record, and the calls with an effect
      (an export, a call of the aligner) are appended to a trace. *)

From Stdlib Require Import ZArith QArith Qround String Ascii List DecimalString Bool Lia Lqa.
From Stdlib Require Import DecimalZ FinFun.
Import ListNotations.

Open Scope string_scope.
Open Scope Z_scope.

(** ** Python values, exceptions, results *)

Module Py.

Inductive pyval : Type :=
| PyNone
| PyInt (z : Z)
| PyFloat (q : Q)
| PyStr (s : string).

(** Every exception that the scripts can meet derives from [Exception];
    [LibraryError] stands for whatever a collaborator raises
    (a decoding error, a missing file, ...). *)
Inductive exception : Type :=
| ZeroDivisionError (msg : string)
| ValueError (msg : string)
| TypeError (msg : string)
| LibraryError (msg : string).

(** [str(e)], what [print(e)] writes. *)
Definition message (e : exception) : string :=
  match e with
  | ZeroDivisionError m | ValueError m | TypeError m | LibraryError m => m
  end.

Inductive result (A : Type) : Type :=
| Ok (a : A)
| Raise (e : exception).
Arguments Ok {A} a.
Arguments Raise {A} e.

Definition bind_result {A B} (r : result A) (k : A -> result B) : result B :=
  match r with
  | Ok a => k a
  | Raise e => Raise e
  end.

(** *** Numbers *)

(** [math.ceil] on a float. *)
Definition ceil (q : Q) : Z := Qceiling q.

(** [a / b] where at least one operand is a float. *)
Definition truediv (a b : Q) : result Q :=
  if Qeq_bool b 0 then Raise (ZeroDivisionError "float division by zero")
  else Ok (a / b)%Q.

(** [int(x)] on a float truncates towards zero. *)
Definition int_of_float (q : Q) : Z := Z.quot (Qnum q) (Zpos (Qden q)).

(** The numeric value of an [int] or a [float]. *)
Definition number (v : pyval) : option Q :=
  match v with
  | PyInt z => Some (inject_Z z)
  | PyFloat q => Some q
  | _ => None
  end.

(** [v == n] for an integer literal [n]. *)
Definition eq_int (v : pyval) (n : Z) : Prop :=
  exists q, number v = Some q /\ (q == inject_Z n)%Q.

(** *** Strings *)

Definition is_dot (c : ascii) : bool := Ascii.eqb c ".".
Definition is_digit (c : ascii) : bool :=
  let n := nat_of_ascii c in (48 <=? n)%nat && (n <=? 57)%nat.
(** [str.isspace] on the ASCII range. *)
Definition is_space (c : ascii) : bool :=
  let n := nat_of_ascii c in
  ((9 <=? n)%nat && (n <=? 13)%nat) || ((28 <=? n)%nat && (n <=? 32)%nat).

(** Is [s] made of decimal digits only? *)
Fixpoint all_digits (s : string) : bool :=
  match s with
  | EmptyString => true
  | String c s' => is_digit c && all_digits s'
  end.

(** [s.lstrip(".")] *)
Fixpoint lstrip_dot (s : string) : string :=
  match s with
  | String c s' => if is_dot c then lstrip_dot s' else s
  | EmptyString => EmptyString
  end.

Fixpoint lstrip_space (s : string) : string :=
  match s with
  | String c s' => if is_space c then lstrip_space s' else s
  | EmptyString => EmptyString
  end.

Fixpoint rev_string (s : string) (acc : string) : string :=
  match s with
  | EmptyString => acc
  | String c s' => rev_string s' (String c acc)
  end.

(** [s.strip()] *)
Definition strip (s : string) : string :=
  rev_string (lstrip_space (rev_string (lstrip_space s) "")) "".

(** [s * n] and [n * s]: the empty string when [n <= 0]. *)
Fixpoint repeat_nat (s : string) (n : nat) : string :=
  match n with
  | O => ""
  | S n' => s ++ repeat_nat s n'
  end.
Definition str_repeat (s : string) (n : Z) : string := repeat_nat s (Z.to_nat n).

(** [str(z)] *)
Definition str_of_int (z : Z) : string := NilZero.string_of_int (Z.to_int z).

Definition digit_value (c : ascii) : Z := Z.of_nat (nat_of_ascii c) - 48.


(** The body of an integer literal: digits, with single underscores allowed
    between two digits.  [after_digit] tells whether the previous character
    was a digit; the result is the value read, [None] when malformed. *)
Fixpoint literal_body (after_digit : bool) (acc : Z) (s : string) : option Z :=
  match s with
  | EmptyString => if after_digit then Some acc else None
  | String c s' =>
      if is_digit c then literal_body true (acc * 10 + digit_value c) s'
      else if Ascii.eqb c "_" then
        if after_digit then literal_body false acc s' else None
      else None
  end.

(** [int(s)] in base 10: surrounding blanks are dropped, then an optional
    sign, then the body. *)
Definition int_of_str (s : string) : result Z :=
  let bad := Raise (ValueError ("invalid literal for int() with base 10: '" ++ s ++ "'")) in
  match strip s with
  | String "-" body =>
      match literal_body false 0 body with Some v => Ok (- v) | None => bad end
  | String "+" body =>
      match literal_body false 0 body with Some v => Ok v | None => bad end
  | body =>
      match literal_body false 0 body with Some v => Ok v | None => bad end
  end.

(** [int(v)] *)
Definition int (v : pyval) : result Z :=
  match v with
  | PyInt z => Ok z
  | PyFloat q => Ok (int_of_float q)
  | PyStr s => int_of_str s
  | PyNone =>
      Raise (TypeError "int() argument must be a string, a bytes-like object or a real number, not 'NoneType'")
  end.

(** [n * v] with an [int] on the left: a product of numbers, or the
    repetition of a string. *)
Definition mul_int (n : Z) (v : pyval) : result pyval :=
  match v with
  | PyInt z => Ok (PyInt (n * z))
  | PyFloat q => Ok (PyFloat (inject_Z n * q))
  | PyStr s => Ok (PyStr (str_repeat s n))
  | PyNone => Raise (TypeError "unsupported operand type(s) for *: 'int' and 'NoneType'")
  end.

(** *** [os.path] (POSIX flavour) *)

(** [s.rfind(c)]: the index of the last [c], or [-1]. *)
Fixpoint rfind_from (c : ascii) (s : string) (i : Z) (last : Z) : Z :=
  match s with
  | EmptyString => last
  | String d s' => rfind_from c s' (i + 1) (if Ascii.eqb d c then i else last)
  end.
Definition rfind (c : ascii) (s : string) : Z := rfind_from c s 0 (-1).

(** [s[i:]] and [s[:i]] for [0 <= i]. *)
Definition drop (i : Z) (s : string) : string :=
  substring (Z.to_nat i) (String.length s - Z.to_nat i) s.
Definition take (i : Z) (s : string) : string := substring 0 (Z.to_nat i) s.

(** [os.path.basename]: what follows the last slash. *)
Definition basename (p : string) : string := drop (rfind "/" p + 1) p.

(** [os.path.dirname]: what precedes the last slash, with the trailing
    slashes removed unless the head is made of slashes only. *)
Fixpoint rstrip_slash_rev (r : string) : string :=
  match r with
  | String c r' => if Ascii.eqb c "/" then rstrip_slash_rev r' else r
  | EmptyString => EmptyString
  end.
Definition dirname (p : string) : string :=
  let head := take (rfind "/" p + 1) p in
  match rstrip_slash_rev (rev_string head "") with
  | EmptyString => head
  | r => rev_string r ""
  end.

(** The loop of [genericpath._splitext] that skips leading dots: is there a
    character other than the dot among the [n] characters from [i] on? *)
Fixpoint has_non_dot (p : string) (i : nat) (n : nat) : bool :=
  match n with
  | O => false
  | S n' =>
      match String.get i p with
      | Some c => if is_dot c then has_non_dot p (S i) n' else true
      | None => true
      end
  end.

(** [os.path.splitext] *)
Definition splitext (p : string) : string * string :=
  let sepIndex := rfind "/" p in
  let dotIndex := rfind "." p in
  if (dotIndex >? sepIndex)
     && has_non_dot p (Z.to_nat (sepIndex + 1)) (Z.to_nat (dotIndex - (sepIndex + 1)))
  then (take dotIndex p, drop dotIndex p)
  else (p, "").

End Py.
Export Py.


(** ** Collaborators and effects *)

Module World.

(** What the scripts read from a decoded [pydub.AudioSegment]. *)
Record AudioSegment : Type := {
  duration_seconds : Q;
  channels : Z;
  frame_rate : Z;
  frame_width : Z
}.

(** A segment handed to [export]: a whole segment, or [audio[start:stop]]
    with the two bounds in milliseconds, as written by the caller (pydub
    clamps them to the length of the audio when it slices). *)
Inductive Clip : Type :=
| Whole (a : AudioSegment)
| Slice (a : AudioSegment) (start stop : Z).

(** The collaborators of one run. *)
Record Env : Type := {
  from_file : string -> result AudioSegment;       (* AudioSegment.from_file *)
  set_channels : AudioSegment -> Z -> result AudioSegment;
  export_to : Clip -> string -> string -> result unit; (* clip.export(path, format=...) *)
  getsize : string -> result Z;                    (* os.path.getsize, in bytes *)
  guess_type : string -> pyval;                    (* mimetypes.guess_type(p)[0] *)
  time : Q;                                        (* time.time() *)
  wer : string -> string -> result Q               (* jiwer.wer *)
}.

(** The calls that leave something behind, in the order they were made. *)
Inductive event : Type :=
| Exported (c : Clip) (path format : string)
| Aligned (reference hypothesis : string).

Definition trace := list event.

(** A computation: it may raise, and it extends the trace. *)
Definition M (A : Type) : Type := trace -> result A * trace.

Definition ret {A} (a : A) : M A := fun t => (Ok a, t).
Definition bind {A B} (m : M A) (k : A -> M B) : M B :=
  fun t => match m t with
           | (Ok a, t') => k a t'
           | (Raise e, t') => (Raise e, t')
           end.
Definition lift {A} (r : result A) : M A := fun t => (r, t).

Definition export (env : Env) (c : Clip) (path format : string) : M unit :=
  fun t => match export_to env c path format with
           | Ok _ => (Ok tt, (t ++ [Exported c path format])%list)
           | Raise e => (Raise e, t)
           end.

Definition call_wer (env : Env) (reference hypothesis : string) : M Q :=
  fun t => (wer env reference hypothesis, (t ++ [Aligned reference hypothesis])%list).

End World.
Export World.

Declare Scope monad_scope.
Delimit Scope monad_scope with monad.
Notation "x <- m ;; k" := (bind m (fun x => k))
  (at level 61, m at next level, right associativity) : monad_scope.
Notation "' pat <- m ;; k" := (bind m (fun x => match x with pat => k end))
  (at level 61, pat pattern, m at next level, right associativity) : monad_scope.
Open Scope monad_scope.

(** ** audio_splitter.py *)

Module AudioSplitter.

(** The f-string of line 38, for the loop index [i]. *)
Definition chunk_path (directory : string) (timestamp : Z)
    (file_name extension : string) (i : Z) : string :=
  directory ++ str_of_int timestamp ++ "_" ++ file_name ++ "_chunk_"
            ++ str_of_int (i + 1) ++ "." ++ extension.

(** The body of the [for i in range(...)] loop, [n] iterations left,
    starting at index [i]; [chunks] is the list built so far. *)
Fixpoint export_chunks (env : Env) (audio : AudioSegment)
    (directory : string) (timestamp : Z) (file_name extension : string)
    (ms_per_chunk : Z) (n : nat) (i : Z) (chunks : list string) : M (list string) :=
  match n with
  | O => ret chunks
  | S n' =>
      let start := i * ms_per_chunk in
      let end_ := (i + 1) * ms_per_chunk in
      let chunk := Slice audio start end_ in
      let chunk_path := chunk_path directory timestamp file_name extension i in
      _ <- export env chunk chunk_path extension ;;
      export_chunks env audio directory timestamp file_name extension
                    ms_per_chunk n' (i + 1) (chunks ++ [chunk_path])%list
  end.

(** Lines 24 to 26: the size in kilobytes, the duration in milliseconds and
    [ms_per_chunk = int(ceil(duration / file_size_kb) * chunk_size)]. *)
Definition ms_per_chunk (size : Z) (duration_seconds : Q) (chunk_size : pyval)
  : result Z :=
  let file_size_kb := (inject_Z size / 1024)%Q in
  let duration := (duration_seconds * 1000)%Q in
  bind_result (truediv duration file_size_kb) (fun ms_per_kb =>
  bind_result (mul_int (ceil ms_per_kb) chunk_size) int).

(** Line 27: [num_chunks = int(ceil(duration / ms_per_chunk))]. *)
Definition num_chunks (duration_seconds : Q) (ms_per_chunk : Z) : result Z :=
  let duration := (duration_seconds * 1000)%Q in
  bind_result (truediv duration (inject_Z ms_per_chunk)) (fun ratio => Ok (ceil ratio)).

Definition chunk_plan (size : Z) (duration_seconds : Q) (chunk_size : pyval)
  : result (Z * Z) :=
  bind_result (ms_per_chunk size duration_seconds chunk_size) (fun ms =>
  bind_result (num_chunks duration_seconds ms) (fun n => Ok (ms, n))).

Definition split_file_by_size (env : Env) (infile directory : string)
    (chunk_size : pyval) : M (list string) :=
  audio <- lift (from_file env infile) ;;
  size <- lift (getsize env infile) ;;
  '(ms_per_chunk, num_chunks) <- lift (chunk_plan size (duration_seconds audio) chunk_size) ;;
  let (file_name, extension) := splitext (basename infile) in
  let extension := lstrip_dot extension in
  let timestamp := int_of_float (time env) in
  export_chunks env audio directory timestamp file_name extension
                ms_per_chunk (Z.to_nat num_chunks) 0 [].

End AudioSplitter.

(** ** audio_details.py *)

Module AudioDetails.

(** A [dict] with string keys, in insertion order. *)
Definition FileDetails := list (string * pyval).

Fixpoint lookup (key : string) (d : FileDetails) : option pyval :=
  match d with
  | [] => None
  | (k, v) :: d' => if String.eqb k key then Some v else lookup key d'
  end.

Definition get_audio_details (env : Env) (filepath : string) : M FileDetails :=
  audio_file <- lift (from_file env filepath) ;;
  let duration := duration_seconds audio_file in
  let channels := channels audio_file in
  let sample_rate := frame_rate audio_file in
  let bit_rate := frame_rate audio_file * frame_width audio_file * 8 in
  let dirpath := dirname filepath in
  let basename := basename filepath in
  let (filename, extension) := splitext basename in
  let mime_type := guess_type env filepath in
  size <- lift (getsize env filepath) ;;
  let file_size := (inject_Z size / 1024)%Q in
  ret [ ("filepath", PyStr filepath);
        ("dirpath", PyStr dirpath);
        ("basename", PyStr basename);
        ("filename", PyStr filename);
        ("extension", PyStr (lstrip_dot extension));
        ("mime_type", mime_type);
        ("filesize", PyFloat file_size);
        ("duration", PyFloat duration);
        ("bit_rate", PyInt bit_rate);
        ("sample_rate", PyInt sample_rate);
        ("channels", PyInt channels) ].

End AudioDetails.

(** ** audio_convertor.py *)

Module AudioConvertor.


End AudioConvertor.

(** ** stt_error_rate.py *)

Module SttErrorRate.

Definition compute_wer (env : Env) (reference hypothesis : string) : M pyval :=
  if (String.length reference =? 0)%nat || (String.length hypothesis =? 0)%nat
  then ret (PyInt 100)
  else
    error_rate <- call_wer env reference hypothesis ;;
    let error_rate := (error_rate * 100)%Q in
    ret (PyFloat error_rate).

End SttErrorRate.

(** ** The word-alignment collaborator *)

Module Jiwer.

(** The words of a sentence: the maximal runs of characters that are not
    blanks.  [cur] is the word being read, reversed. *)
Fixpoint words_from (cur : string) (s : string) : list string :=
  match s with
  | EmptyString =>
      match cur with EmptyString => [] | _ => [rev_string cur ""] end
  | String c s' =>
      if is_space c then
        match cur with
        | EmptyString => words_from "" s'
        | _ => rev_string cur "" :: words_from "" s'
        end
      else words_from (String c cur) s'
  end.
Definition words (s : string) : list string := words_from "" s.

(** The edit distance between two sequences of words: the least number of
    insertions, deletions and substitutions that turns one into the other. *)
Fixpoint distance (r : list string) : list string -> nat :=
  fix distance_r (h : list string) : nat :=
    match r, h with
    | [], _ => List.length h
    | _, [] => List.length r
    | a :: r', b :: h' =>
        Nat.min (Nat.min (S (distance r' h)) (S (distance_r h')))
                ((if String.eqb a b then 0 else 1) + distance r' h')%nat
    end.

(** Modelled from the spec: [jiwer.wer], the word-alignment collaborator that
    [compute_wer] delegates to, is a third-party package and is not among the
    repository's files.  The spec describes it as the "edit distance between
    reference and hypothesis word sequences, normalized by reference length";
    a reference without any word leaves nothing to normalise by and is
    refused. *)
Definition wer (reference hypothesis : string) : result Q :=
  let r := words reference in
  let h := words hypothesis in
  match r with
  | [] => Raise (ValueError "one or more references are empty strings")
  | _ => Ok (inject_Z (Z.of_nat (distance r h)) / inject_Z (Z.of_nat (List.length r)))%Q
  end.

End Jiwer.

(** ** The argument parser

    [argparse.ArgumentParser()] with [add_argument(flag, type=..., required=...)]
    for long flags only, as the four scripts use it: every flag stores one
    value, the default of a flag is [None], and [-h]/[--help] is added by the
    parser itself.  A rejected command line ends the process with status 2
    after the usage text is written to the standard error; the help request
    ends it with status 0. *)

Module Argparse.

Inductive argtype : Type := type_str | type_int.

Record argument : Type := {
  flag : string;
  type : argtype;
  required : bool
}.

Definition parser := list argument.
Definition Namespace := list (string * pyval).

Inductive action : Type :=
| HelpAction
| Store (a : argument).

Inductive parse_result : Type :=
| Parsed (args : Namespace)
| Help
| Error (msg : string).

(** How one word of the command line is read before anything is consumed. *)
Inductive token : Type :=
| TArg (s : string)
| TOpt (act : action) (explicit : option string)
| TUnknown (s : string)
| TAmbiguous (s : string).

Definition dest (a : argument) : string := drop 2 (flag a).

Definition actions (p : parser) : list (string * action) :=
  ("-h", HelpAction) :: ("--help", HelpAction) :: map (fun a => (flag a, Store a)) p.

Fixpoint exact (o : string) (acts : list (string * action)) : option action :=
  match acts with
  | [] => None
  | (s, act) :: acts' => if String.eqb s o then Some act else exact o acts'
  end.

(** [tok.split("=", 1)] when [tok] holds an equals sign. *)
Fixpoint split_eq (tok : string) : option (string * string) :=
  match tok with
  | EmptyString => None
  | String c tok' =>
      if Ascii.eqb c "=" then Some ("", tok')
      else match split_eq tok' with
           | Some (l, r) => Some (String c l, r)
           | None => None
           end
  end.

Fixpoint contains (c : ascii) (s : string) : bool :=
  match s with
  | EmptyString => false
  | String d s' => Ascii.eqb d c || contains c s'
  end.

Fixpoint after_digits (s : string) : string :=
  match s with
  | String c s' => if is_digit c then after_digits s' else s
  | EmptyString => EmptyString
  end.

(** The words matched by [^-\d+$|^-\d*\.\d+$]. *)
Definition negative_number (tok : string) : bool :=
  match tok with
  | String "-" body =>
      match body with
      | EmptyString => false
      | _ =>
          all_digits body
          || match after_digits body with
             | String "." frac =>
                 all_digits frac && negb (String.eqb frac "")
             | _ => false
             end
      end
  | _ => false
  end.

(** The flags that a word abbreviates. *)
Definition abbreviated (p : parser) (tok : string) : list (action * option string) :=
  match tok with
  | String "-" (String "-" _) =>
      let '(prefix, explicit) :=
        match split_eq tok with
        | Some (l, r) => (l, Some r)
        | None => (tok, None)
        end in
      map (fun sa => (snd sa, explicit))
          (filter (fun sa => String.prefix prefix (fst sa)) (actions p))
  | String "-" _ =>
      let short := take 2 tok in
      let rest := drop 2 tok in
      map (fun sa => (snd sa, if String.eqb (fst sa) short then Some rest else None))
          (filter (fun sa => String.eqb (fst sa) short || String.prefix tok (fst sa))
                  (actions p))
  | _ => []
  end.

Definition classify (p : parser) (tok : string) : token :=
  match tok with
  | String "-" _ =>
      match exact tok (actions p) with
      | Some act => TOpt act None
      | None =>
          if (String.length tok =? 1)%nat then TArg tok
          else
            match match split_eq tok with
                  | Some (l, r) =>
                      match exact l (actions p) with
                      | Some act => Some (act, r)
                      | None => None
                      end
                  | None => None
                  end with
            | Some (act, r) => TOpt act (Some r)
            | None =>
                match abbreviated p tok with
                | [(act, explicit)] => TOpt act explicit
                | _ :: _ :: _ => TAmbiguous tok
                | [] =>
                    if negative_number tok || contains " " tok then TArg tok
                    else TUnknown tok
                end
            end
      end
  | _ => TArg tok
  end.

(** The conversion named by [type=]. *)
Definition convert (t : argtype) (s : string) : result pyval :=
  match t with
  | type_str => Ok (PyStr s)
  | type_int => bind_result (int_of_str s) (fun z => Ok (PyInt z))
  end.

Fixpoint set (key : string) (v : pyval) (ns : Namespace) : Namespace :=
  match ns with
  | [] => [(key, v)]
  | (k, w) :: ns' => if String.eqb k key then (k, v) :: ns' else (k, w) :: set key v ns'
  end.

Fixpoint get (key : string) (ns : Namespace) : pyval :=
  match ns with
  | [] => PyNone
  | (k, v) :: ns' => if String.eqb k key then v else get key ns'
  end.

Definition store (a : argument) (s : string) (ns : Namespace) : result Namespace :=
  match convert (type a) s with
  | Ok v => Ok (set (dest a) v ns)
  | Raise _ => Raise (ValueError ("argument " ++ flag a ++ ": invalid value: '" ++ s ++ "'"))
  end.

(** The flags of [p] that are required and were not seen. *)
Definition missing (p : parser) (seen : list string) : list string :=
  map flag (filter (fun a => required a && negb (existsb (String.eqb (flag a)) seen)) p).

(** The words are consumed from left to right.  [seen] lists the flags met so
    far and [extras] counts the words that no flag took. *)
Fixpoint consume (p : parser) (toks : list token) (ns : Namespace)
    (seen : list string) (extras : nat) : parse_result :=
  match toks with
  | [] =>
      match missing p seen with
      | _ :: _ => Error "the following arguments are required"
      | [] =>
          match extras with
          | O => Parsed ns
          | S _ => Error "unrecognized arguments"
          end
      end
  | TArg _ :: toks' => consume p toks' ns seen (S extras)
  | TUnknown _ :: toks' => consume p toks' ns seen (S extras)
  | TAmbiguous _ :: _ => Error "ambiguous option"
  | TOpt HelpAction None :: _ => Help
  | TOpt HelpAction (Some _) :: _ => Error "ignored explicit argument"
  | TOpt (Store a) (Some s) :: toks' =>
      match store a s ns with
      | Ok ns' => consume p toks' ns' (flag a :: seen) extras
      | Raise e => Error (message e)
      end
  | TOpt (Store a) None :: toks' =>
      match toks' with
      | TArg s :: toks'' =>
          match store a s ns with
          | Ok ns' => consume p toks'' ns' (flag a :: seen) extras
          | Raise e => Error (message e)
          end
      | _ => Error "expected one argument"
      end
  end.

Definition is_ambiguous (t : token) : bool :=
  match t with TAmbiguous _ => true | _ => false end.

(** [parser.parse_args()] on the words that follow the program name. *)
Definition parse_args (p : parser) (argv : list string) : parse_result :=
  let toks := map (classify p) argv in
  if existsb is_ambiguous toks then Error "ambiguous option"
  else consume p toks (map (fun a => (dest a, PyNone)) p) [] 0.



End Argparse.

(** ** The four commands *)

Module Command.
Import Argparse.

(** One line of output.  [print(f"{key}:{value}")] and [print(value)] keep
    the value they render; the decimal rendering of a float is not modelled. *)
Inductive line : Type :=
| Text (s : string)
| KeyValue (key : string) (value : pyval)
| Value (v : pyval).

Record Process : Type := {
  stdout : list line;
  stderr : list string;
  status : Z
}.

Definition exit_with (out : list line) (code : Z) : Process :=
  {| stdout := out; stderr := []; status := code |}.

(** What the process does when [parse_args] does not return. *)
Definition parser_exit (r : parse_result) : Process :=
  match r with
  | Error msg => {| stdout := []; stderr := ["usage"; msg]; status := 2 |}
  | _ => {| stdout := [Text "usage"]; stderr := []; status := 0 |}
  end.

(** [try: ...; exit(0)  except Exception as e: print(e); exit(1)]:
    [exit] raises [SystemExit], which [except Exception] lets through. *)
Definition try_exit {A} (body : M A) (show : A -> list line) : trace -> Process * trace :=
  fun t =>
    match body t with
    | (Ok a, t') => (exit_with (show a) 0, t')
    | (Raise e, t') => (exit_with [Text (message e)] 1, t')
    end.

Definition as_str (v : pyval) : string :=
  match v with PyStr s => s | _ => "" end.


Definition details_parser : parser :=
  [ {| flag := "--infile"; type := type_str; required := true |} ].

Definition splitter_parser : parser :=
  [ {| flag := "--infile"; type := type_str; required := true |};
    {| flag := "--tmp_dir"; type := type_str; required := true |};
    {| flag := "--chunk_size"; type := type_str; required := true |} ].

Definition wer_parser : parser :=
  [ {| flag := "--reference"; type := type_str; required := true |};
    {| flag := "--hypothesis"; type := type_str; required := true |} ].


Definition main_details (env : Env) (argv : list string) : trace -> Process * trace :=
  match parse_args details_parser argv with
  | Parsed args =>
      try_exit (AudioDetails.get_audio_details env (as_str (get "infile" args)))
               (map (fun kv => KeyValue (fst kv) (snd kv)))
  | r => fun t => (parser_exit r, t)
  end.

Definition main_splitter (env : Env) (argv : list string) : trace -> Process * trace :=
  match parse_args splitter_parser argv with
  | Parsed args =>
      try_exit (AudioSplitter.split_file_by_size env
                  (as_str (get "infile" args)) (as_str (get "tmp_dir" args))
                  (get "chunk_size" args))
               (map Text)
  | r => fun t => (parser_exit r, t)
  end.

Definition main_wer (env : Env) (argv : list string) : trace -> Process * trace :=
  match parse_args wer_parser argv with
  | Parsed args =>
      try_exit (SttErrorRate.compute_wer env
                  (as_str (get "reference" args)) (as_str (get "hypothesis" args)))
               (fun error_rate => [Value error_rate])
  | r => fun t => (parser_exit r, t)
  end.


End Command.

(** ** Reading a run of the splitter *)

Module Run.

(** The indices [i, i + 1, ..., i + n - 1]. *)
Fixpoint indices (i : Z) (n : nat) : list Z :=
  match n with
  | O => []
  | S n' => i :: indices (i + 1) n'
  end.

(** The name, the extension and the timestamp that a run on [infile] uses. *)
Definition file_name (infile : string) : string :=
  fst (splitext (basename infile)).
Definition extension (infile : string) : string :=
  lstrip_dot (snd (splitext (basename infile))).
Definition timestamp (env : Env) : Z := int_of_float (time env).

(** The path of the chunk of index [i] (counted from zero). *)
Definition path_of (env : Env) (infile directory : string) (i : Z) : string :=
  AudioSplitter.chunk_path directory (timestamp env) (file_name infile)
                           (extension infile) i.

(** The export of the chunk of index [i], [ms] milliseconds long. *)
Definition export_of (env : Env) (infile directory : string)
    (a : AudioSegment) (ms : Z) (i : Z) : event :=
  Exported (Slice a (i * ms) ((i + 1) * ms)) (path_of env infile directory i)
           (extension infile).


(** Does [s] start with a dot? *)
Definition leading_dot (s : string) : bool :=
  match s with
  | String c _ => is_dot c
  | EmptyString => false
  end.

End Run.

(** ** Concrete data for the examples *)

Module Sample.

(** Ten seconds of 16-bit stereo audio at 44.1 kHz. *)
Definition ten_seconds : AudioSegment :=
  {| duration_seconds := 10; channels := 2; frame_rate := 44100; frame_width := 4 |}.

(** A world where every file decodes to [ten_seconds] and weighs 1000 KB,
    and where every export succeeds. *)
Definition env : Env :=
  {| from_file := fun _ => Ok ten_seconds;
     set_channels := fun a c =>
       Ok {| duration_seconds := duration_seconds a; channels := c;
             frame_rate := frame_rate a; frame_width := frame_width a |};
     export_to := fun _ _ _ => Ok tt;
     getsize := fun _ => Ok 1024000;
     guess_type := fun _ => PyStr "audio/mpeg";
     time := 1700000000.5;
     wer := Jiwer.wer |}.



End Sample.

(** ** A world where one export fails *)

Module Faulty.

(** As [Sample.env], except that the export of the slice that starts at
    4000 ms raises. *)
Definition env : Env :=
  {| from_file := from_file Sample.env;
     set_channels := set_channels Sample.env;
     export_to := fun c _ _ =>
       match c with
       | Slice _ 4000 _ => Raise (LibraryError "No space left on device")
       | _ => Ok tt
       end;
     getsize := getsize Sample.env;
     guess_type := guess_type Sample.env;
     time := time Sample.env;
     wer := wer Sample.env |}.




End Faulty.

(** ** Reading the output of a command *)

Module Observe.

(** The paths written by the exports of a trace, in order. *)
Fixpoint exported_paths (t : trace) : list string :=
  match t with
  | [] => []
  | Exported _ path _ :: t' => path :: exported_paths t'
  | Aligned _ _ :: t' => exported_paths t'
  end.

(** The key of a [key:value] line; [None] for another line. *)
Definition line_key (l : Command.line) : option string :=
  match l with
  | Command.KeyValue key _ => Some key
  | _ => None
  end.

End Observe.

(** * Properties *)

(** ** Arithmetic of the chunk plan *)

Section Arithmetic.












End Arithmetic.

(** ** The chunk splitter *)

Section Splitter.
Import AudioSplitter Run.

Variable env : Env.
Variables infile directory : string.

(** Once the file is decoded and measured, the run is the export loop on
    the plan, or the error of the plan. *)
Lemma split_with_plan (a : AudioSegment) (size : Z) (chunk_size : pyval)
    (ms n : Z) (t : trace) :
  from_file env infile = Ok a ->
  getsize env infile = Ok size ->
  chunk_plan size (duration_seconds a) chunk_size = Ok (ms, n) ->
  split_file_by_size env infile directory chunk_size t
  = export_chunks env a directory (timestamp env) (file_name infile)
                  (extension infile) ms (Z.to_nat n) 0 [] t.
Proof.
  intros Ha Hs Hp.
  unfold split_file_by_size, bind, lift, file_name, extension, timestamp.
  rewrite Ha, Hs, Hp.
  destruct (splitext (basename infile)); reflexivity.
Qed.


(** A run that returns went through a decoded file, a size and a plan. *)
Lemma split_ok_inv (chunk_size : pyval) (t t' : trace) (chunks : list string) :
  split_file_by_size env infile directory chunk_size t = (Ok chunks, t') ->
  exists a size ms n,
    from_file env infile = Ok a /\
    getsize env infile = Ok size /\
    chunk_plan size (duration_seconds a) chunk_size = Ok (ms, n).
Proof.
  unfold split_file_by_size, bind, lift.
  destruct (from_file env infile) as [a|e]; [|discriminate].
  destruct (getsize env infile) as [size|e]; [|discriminate].
  destruct (chunk_plan size (duration_seconds a) chunk_size) as [[ms n]|e] eqn:Hp;
    [|discriminate].
  intros _. now exists a, size, ms, n.
Qed.

Lemma indices_length (i : Z) (n : nat) : List.length (indices i n) = n.
Proof. revert i. induction n; intros i; simpl; congruence. Qed.

Lemma indices_nth (n : nat) : forall (i : Z) (k : nat),
  (k < n)%nat -> nth_error (indices i n) k = Some (i + Z.of_nat k).
Proof.
  induction n as [|n IH]; intros i k Hk; [lia|].
  destruct k as [|k]; simpl.
  - f_equal. lia.
  - rewrite IH by lia. f_equal. lia.
Qed.


(** A loop that returns has exported every chunk in order. *)
Lemma export_chunks_ok (a : AudioSegment) (ms : Z) (n : nat) :
  forall (i : Z) (acc : list string) (t t' : trace) (chunks : list string),
  export_chunks env a directory (timestamp env) (file_name infile)
                (extension infile) ms n i acc t = (Ok chunks, t') ->
  chunks = (acc ++ map (path_of env infile directory) (indices i n))%list /\
  t' = (t ++ map (export_of env infile directory a ms) (indices i n))%list.
Proof.
  induction n as [|n IH]; intros i acc t t' chunks H; simpl in *.
  - unfold ret in H. inversion H; subst. now rewrite !app_nil_r.
  - unfold bind, export in H.
    destruct (export_to env _ _ _) as [[]|e]; [|discriminate].
    apply IH in H. destruct H as [-> ->].
    rewrite <- !app_assoc. split; reflexivity.
Qed.

(** When no export fails, the loop returns. *)
Lemma export_chunks_total (a : AudioSegment) (ms : Z) (n : nat) :
  (forall c p f, export_to env c p f = Ok tt) ->
  forall (i : Z) (acc : list string) (t : trace),
  export_chunks env a directory (timestamp env) (file_name infile)
                (extension infile) ms n i acc t
  = (Ok (acc ++ map (path_of env infile directory) (indices i n))%list,
     (t ++ map (export_of env infile directory a ms) (indices i n))%list).
Proof.
  intros Hx. induction n as [|n IH]; intros i acc t; simpl.
  - unfold ret. now rewrite !app_nil_r.
  - unfold bind, export. rewrite Hx, IH, <- !app_assoc. reflexivity.
Qed.


End Splitter.

Section Plan.
Import AudioSplitter Run.





End Plan.


(** ** Claims on the chunk splitter *)











(** C10.  A run of [split_file_by_size] that returns went through a plan
    [(ms_per_chunk, num_chunks)]; it returns [num_chunks] paths; the path at
    position [k] (from zero) is
    [{directory}{timestamp}_{filename}_chunk_{k+1}.{extension}] with the one
    timestamp read for the call; and the exports of the run are, in the same
    order, the slices written to these paths with the extension of the input
    as format. *)
Theorem split_paths (env : Env) (infile directory : string) (chunk_size : pyval)
    (t t' : trace) (chunks : list string) :
  AudioSplitter.split_file_by_size env infile directory chunk_size t
    = (Ok chunks, t') ->
  exists (a : AudioSegment) (size ms n : Z),
    from_file env infile = Ok a /\
    getsize env infile = Ok size /\
    AudioSplitter.chunk_plan size (duration_seconds a) chunk_size = Ok (ms, n) /\
    List.length chunks = Z.to_nat n /\
    (forall k : nat, (k < Z.to_nat n)%nat ->
       nth_error chunks k
       = Some (directory ++ str_of_int (int_of_float (time env)) ++ "_"
                 ++ fst (splitext (basename infile)) ++ "_chunk_"
                 ++ str_of_int (Z.of_nat k + 1) ++ "."
                 ++ lstrip_dot (snd (splitext (basename infile))))) /\
    exists exports : list event,
      t' = (t ++ exports)%list /\
      List.length exports = Z.to_nat n /\
      forall k : nat, (k < Z.to_nat n)%nat ->
        exists path,
          nth_error chunks k = Some path /\
          nth_error exports k
          = Some (Exported (Slice a (Z.of_nat k * ms) ((Z.of_nat k + 1) * ms))
                           path (lstrip_dot (snd (splitext (basename infile))))).
Proof.
  intros Hrun.
  destruct (split_ok_inv env infile directory chunk_size t t' chunks Hrun)
    as (a & size & ms & n & Ha & Hs & Hp).
  exists a, size, ms, n. repeat (split; [assumption|]).
  rewrite (split_with_plan env infile directory a size chunk_size ms n t Ha Hs Hp)
    in Hrun.
  apply export_chunks_ok in Hrun. destruct Hrun as [Hc Ht].
  simpl in Hc. subst chunks.
  assert (Hnth : forall k, (k < Z.to_nat n)%nat ->
            nth_error (map (Run.path_of env infile directory)
                           (Run.indices 0 (Z.to_nat n))) k
            = Some (Run.path_of env infile directory (Z.of_nat k))).
  { intros k Hk. rewrite nth_error_map, indices_nth by assumption. reflexivity. }
  split; [now rewrite length_map, indices_length|].
  split; [intros k Hk; now rewrite Hnth|].
  exists (map (Run.export_of env infile directory a ms) (Run.indices 0 (Z.to_nat n))).
  split; [assumption|].
  split; [now rewrite length_map, indices_length|].
  intros k Hk. exists (Run.path_of env infile directory (Z.of_nat k)).
  split; [now apply Hnth|].
  rewrite nth_error_map, indices_nth by assumption. reflexivity.
Qed.

Lemma split_paths_witness :
  exists t',
    AudioSplitter.split_file_by_size Sample.env "/in/song.mp3" "/tmp/" (PyInt 400) []
      = (Ok ["/tmp/1700000000_song_chunk_1.mp3";
             "/tmp/1700000000_song_chunk_2.mp3";
             "/tmp/1700000000_song_chunk_3.mp3"], t') /\
    exists (a : AudioSegment) (size ms n : Z),
      AudioSplitter.chunk_plan size (duration_seconds a) (PyInt 400) = Ok (ms, n) /\
      Z.to_nat n = 3%nat.
Proof.
  exists (snd (AudioSplitter.split_file_by_size Sample.env "/in/song.mp3" "/tmp/"
                 (PyInt 400) [])).
  split; [reflexivity|].
  destruct (split_paths Sample.env "/in/song.mp3" "/tmp/" (PyInt 400) [] _ _ eq_refl)
    as (a & size & ms & n & _ & _ & Hp & Hlen & _).
  exists a, size, ms, n. split; [exact Hp | symmetry; exact Hlen].
Defined.

(** ** Decimal literals *)

Section Literals.
















Lemma length_append (s1 s2 : string) :
  String.length (s1 ++ s2) = (String.length s1 + String.length s2)%nat.
Proof. induction s1; simpl; congruence. Qed.





End Literals.

(** ** The argument parser: what a flag of type [str] holds *)

Section Parser.
Import Argparse.







Variable p : parser.
Hypothesis all_str : forall a, In a p -> type a = type_str.






End Parser.

(** ** The chunk size on the command line *)




(** ** The detail extractor *)

Lemma lstrip_dot_no_leading_dot (s : string) :
  Run.leading_dot (lstrip_dot s) = false.
Proof.
  induction s as [|c s IH]; simpl; [reflexivity|].
  destruct (is_dot c) eqn:E; [exact IH | simpl; exact E].
Qed.

(** C6.  For a file that decodes, [get_audio_details] returns a mapping
    where [bit_rate] is [frame_rate * frame_width * 8], [sample_rate] is the
    frame rate, [filesize] is the byte size divided by 1024, and [extension]
    does not start with the dot that separates it from the name. *)
Theorem details_fields (env : Env) (filepath : string) (a : AudioSegment)
    (size : Z) (t : trace) :
  from_file env filepath = Ok a ->
  getsize env filepath = Ok size ->
  exists (d : AudioDetails.FileDetails) (ext : string),
    AudioDetails.get_audio_details env filepath t = (Ok d, t) /\
    AudioDetails.lookup "bit_rate" d
      = Some (PyInt (frame_rate a * frame_width a * 8)) /\
    AudioDetails.lookup "sample_rate" d = Some (PyInt (frame_rate a)) /\
    AudioDetails.lookup "filesize" d = Some (PyFloat (inject_Z size / 1024)) /\
    AudioDetails.lookup "extension" d = Some (PyStr ext) /\
    Run.leading_dot ext = false.
Proof.
  intros Ha Hs.
  unfold AudioDetails.get_audio_details, bind, lift, ret. rewrite Ha.
  destruct (splitext (basename filepath)) as [filename extension] eqn:E.
  rewrite Hs.
  eexists. exists (lstrip_dot extension).
  split; [reflexivity|].
  repeat split. apply lstrip_dot_no_leading_dot.
Qed.

Lemma details_fields_witness :
  exists d,
    AudioDetails.get_audio_details Sample.env "/in/..song.mp3" [] = (Ok d, []) /\
    AudioDetails.lookup "bit_rate" d = Some (PyInt 1411200) /\
    AudioDetails.lookup "extension" d = Some (PyStr "mp3").
Proof.
  destruct (details_fields Sample.env "/in/..song.mp3" Sample.ten_seconds 1024000 []
              eq_refl eq_refl) as (d & ext & Hd & Hb & _ & _ & He & _).
  exists d. split; [exact Hd|]. split; [exact Hb|].
  rewrite He. vm_compute in Hd. inversion Hd; subst d.
  vm_compute in He. exact (eq_sym He).
Defined.

(** ** The error-rate calculator *)

(** C7.  When the reference or the hypothesis is empty, [compute_wer]
    returns the integer 100 and leaves the trace as it was: the alignment
    collaborator is not called. *)
Theorem wer_short_circuit (env : Env) (reference hypothesis : string) (t : trace) :
  reference = "" \/ hypothesis = "" ->
  SttErrorRate.compute_wer env reference hypothesis t = (Ok (PyInt 100), t).
Proof.
  intros [-> | ->]; unfold SttErrorRate.compute_wer; simpl; [reflexivity|].
  now rewrite orb_true_r.
Qed.

Lemma wer_short_circuit_witness :
  SttErrorRate.compute_wer Sample.env "the cat sat" "" [] = (Ok (PyInt 100), []) /\
  SttErrorRate.compute_wer Sample.env "" "the cat sat" [] = (Ok (PyInt 100), []).
Proof.
  split.
  - exact (wer_short_circuit Sample.env "the cat sat" "" [] (or_intror eq_refl)).
  - exact (wer_short_circuit Sample.env "" "the cat sat" [] (or_introl eq_refl)).
Defined.

Section Alignment.
Import Jiwer.

Lemma distance_cons (a b : string) (r h : list string) :
  distance (a :: r) (b :: h)
  = Nat.min (Nat.min (S (distance r (b :: h))) (S (distance (a :: r) h)))
            ((if String.eqb a b then 0 else 1) + distance r h)%nat.
Proof. reflexivity. Qed.

(** A sequence is at distance zero from itself. *)
Lemma distance_refl (l : list string) : distance l l = 0%nat.
Proof.
  induction l as [|a l IH]; [reflexivity|].
  rewrite distance_cons, String.eqb_refl, IH. apply Nat.min_0_r.
Qed.

Lemma words_empty : words "" = [].
Proof. reflexivity. Qed.

Lemma wer_nonneg (r h : string) (q : Q) : wer r h = Ok q -> (0 <= q)%Q.
Proof.
  unfold wer. destruct (words r) as [|w ws] eqn:E; [discriminate|].
  intros H. inversion H; subst q.
  apply Qle_shift_div_l.
  - unfold Qlt; simpl. lia.
  - rewrite Qmult_0_l. unfold Qle; simpl. lia.
Qed.

Lemma wer_same (x : string) :
  words x <> [] -> exists q, wer x x = Ok q /\ (q == 0)%Q.
Proof.
  intros Hw. unfold wer. rewrite distance_refl.
  destruct (words x) as [|w ws]; [congruence|].
  eexists. split; [reflexivity|]. reflexivity.
Qed.

End Alignment.

(** C8.  With the aligner of the spec, [compute_wer(x, x) == 0] for every
    string [x] that holds a word, and a value returned by [compute_wer] is
    never negative. *)
Theorem wer_identity_and_sign (env : Env) :
  wer env = Jiwer.wer ->
  (forall (x : string) (t : trace),
     Jiwer.words x <> [] ->
     exists v t', SttErrorRate.compute_wer env x x t = (Ok v, t') /\ eq_int v 0) /\
  (forall (reference hypothesis : string) (t t' : trace) (v : pyval),
     SttErrorRate.compute_wer env reference hypothesis t = (Ok v, t') ->
     exists q, number v = Some q /\ (0 <= q)%Q).
Proof.
  intros Hwer. split.
  - intros x t Hw.
    assert (Hx : (String.length x =? 0)%nat = false).
    { destruct x; [now rewrite words_empty in Hw | reflexivity]. }
    destruct (wer_same x Hw) as (q & Hq & Hz).
    unfold SttErrorRate.compute_wer, bind, call_wer, ret.
    rewrite Hx, Hwer, Hq. simpl.
    do 2 eexists. split; [reflexivity|].
    exists (q * 100)%Q. split; [reflexivity|]. now rewrite Hz.
  - intros r h t t' v.
    unfold SttErrorRate.compute_wer, bind, call_wer, ret.
    destruct ((String.length r =? 0)%nat || (String.length h =? 0)%nat).
    + intros H. inversion H; subst. exists (inject_Z 100). split; [reflexivity|].
      discriminate.
    + rewrite Hwer. destruct (Jiwer.wer r h) as [q|e] eqn:Hq; [|discriminate].
      intros H. inversion H; subst. exists (q * 100)%Q. split; [reflexivity|].
      apply Qmult_le_0_compat; [now apply wer_nonneg with r h | discriminate].
Qed.

Lemma wer_identity_and_sign_witness :
  wer Sample.env = Jiwer.wer /\
  exists v t',
    SttErrorRate.compute_wer Sample.env "the cat sat" "the cat sat" [] = (Ok v, t') /\
    eq_int v 0.
Proof.
  split; [reflexivity|].
  apply (proj1 (wer_identity_and_sign Sample.env eq_refl)).
  discriminate.
Defined.

(** ** The four commands *)

Section Commands.
Import Argparse Command.


End Commands.



(** ** Worked examples *)

Example splitext_song : splitext "song.tar.mp3" = ("song.tar", ".mp3").
Proof. reflexivity. Qed.
Example splitext_hidden : splitext ".bashrc" = (".bashrc", "").
Proof. reflexivity. Qed.
Example basename_path : basename "/tmp/in/song.mp3" = "song.mp3".
Proof. reflexivity. Qed.
Example dirname_path : dirname "/tmp/in/song.mp3" = "/tmp/in".
Proof. reflexivity. Qed.
Example int_of_str_ok : int_of_str " +1_000 " = Ok 1000.
Proof. reflexivity. Qed.
Example int_of_str_empty :
  int_of_str "" = Raise (ValueError "invalid literal for int() with base 10: ''").
Proof. reflexivity. Qed.
Example str_of_int_neg : str_of_int (-15) = "-15".
Proof. reflexivity. Qed.

Example wer_all_wrong :
  SttErrorRate.compute_wer Sample.env "the cat sat" "a dog ran" []
  = (Ok (PyFloat (300 # 3)), [Aligned "the cat sat" "a dog ran"]).
Proof. reflexivity. Qed.

Example splitter_command :
  fst (Command.main_splitter Sample.env
         ["--infile"; "x.wav"; "--tmp_dir"; "/tmp/"; "--chunk_size"; "4000"] [])
  = Command.exit_with [Command.Text "/tmp/1700000000_x_chunk_1.wav"] 0.
Proof. reflexivity. Qed.

(** * Further properties of the chunk splitter *)

Section SplitterRuns.
Import AudioSplitter Run.

Variable env : Env.
Variables infile directory : string.



Lemma indices_bounds (n : nat) : forall (i k : Z),
  In k (indices i n) -> i <= k < i + Z.of_nat n.
Proof.
  induction n as [|n IH]; intros i k Hk; simpl in Hk; [contradiction|].
  destruct Hk as [<-|Hk]; [lia|]. apply IH in Hk. lia.
Qed.

End SplitterRuns.









(** ** The names of the chunks *)

Section ChunkNames.

Lemma to_int_not_nil (z : Z) :
  Z.to_int z <> Decimal.Pos Decimal.Nil /\ Z.to_int z <> Decimal.Neg Decimal.Nil.
Proof.
  pose proof (DecimalZ.to_of (Z.to_int z)) as H.
  rewrite DecimalZ.of_to in H.
  split; intros E; rewrite E in H; discriminate H.
Qed.

(** Two integers with the same decimal writing are equal. *)
Lemma str_of_int_inj (x y : Z) : str_of_int x = str_of_int y -> x = y.
Proof.
  unfold str_of_int. intros H.
  destruct (to_int_not_nil x) as [Hx1 Hx2].
  destruct (to_int_not_nil y) as [Hy1 Hy2].
  pose proof (NilZero.isi (Z.to_int x) Hx1 Hx2) as Ix.
  pose proof (NilZero.isi (Z.to_int y) Hy1 Hy2) as Iy.
  rewrite H, Iy in Ix. inversion Ix as [E].
  symmetry. now apply DecimalZ.to_int_inj.
Qed.

Lemma append_cancel_l (s a b : string) : s ++ a = s ++ b -> a = b.
Proof. induction s as [|c s IH]; simpl; intros H; [assumption|]. inversion H. auto. Qed.

Lemma append_cancel_r (a : string) : forall b s, a ++ s = b ++ s -> a = b.
Proof.
  induction a as [|c a IH]; intros [|d b] s H; simpl in H.
  - reflexivity.
  - apply (f_equal String.length) in H. simpl in H.
    rewrite length_append in H. lia.
  - apply (f_equal String.length) in H. simpl in H.
    rewrite length_append in H. lia.
  - inversion H. f_equal. eauto.
Qed.

(** Two chunks of one run have different paths. *)
Lemma chunk_path_inj (directory : string) (timestamp : Z)
    (file_name extension : string) (i j : Z) :
  AudioSplitter.chunk_path directory timestamp file_name extension i
  = AudioSplitter.chunk_path directory timestamp file_name extension j ->
  i = j.
Proof.
  unfold AudioSplitter.chunk_path. intros H.
  do 5 apply append_cancel_l in H.
  apply append_cancel_r in H. apply str_of_int_inj in H. lia.
Qed.

Lemma indices_NoDup (n : nat) : forall i : Z, NoDup (Run.indices i n).
Proof.
  induction n as [|n IH]; intros i; simpl; constructor.
  - intros Hin. apply indices_bounds in Hin. lia.
  - apply IH.
Qed.

End ChunkNames.

(** X5.  The paths returned by one call of [split_file_by_size] are
    pairwise distinct: no chunk of a run is written over another chunk of
    the same run. *)
Theorem split_paths_distinct (env : Env) (infile directory : string)
    (chunk_size : pyval) (t t' : trace) (chunks : list string) :
  AudioSplitter.split_file_by_size env infile directory chunk_size t
    = (Ok chunks, t') ->
  NoDup chunks.
Proof.
  intros Hrun.
  destruct (split_ok_inv env infile directory chunk_size t t' chunks Hrun)
    as (a & size & ms & n & Ha & Hs & Hp).
  rewrite (split_with_plan env infile directory a size chunk_size ms n t Ha Hs Hp)
    in Hrun.
  apply export_chunks_ok in Hrun. destruct Hrun as [-> _]. simpl.
  apply Injective_map_NoDup; [|apply indices_NoDup].
  intros i j. apply chunk_path_inj.
Qed.

Lemma split_paths_distinct_witness :
  NoDup ["/tmp/1700000000_song_chunk_1.mp3";
         "/tmp/1700000000_song_chunk_2.mp3";
         "/tmp/1700000000_song_chunk_3.mp3"].
Proof.
  exact (split_paths_distinct Sample.env "song.mp3" "/tmp/" (PyInt 400) []
           (snd (AudioSplitter.split_file_by_size Sample.env "song.mp3" "/tmp/"
                   (PyInt 400) []))
           _ eq_refl).
Defined.



(** * Further properties of the converter *)



(** * Further properties of the detail extractor *)

Section Paths.
Import Argparse.

(** The last occurrence of a character splits a string in two, and the
    character does not occur after it. *)
Lemma rfind_from_cases (c : ascii) (s : string) : forall (i last : Z),
  (contains c s = false /\ rfind_from c s i last = last)
  \/ (exists l r, s = l ++ String c r /\ contains c r = false
                  /\ rfind_from c s i last = i + Z.of_nat (String.length l)).
Proof.
  induction s as [|d s IH]; intros i last; simpl.
  - left. now split.
  - destruct (IH (i + 1) (if Ascii.eqb d c then i else last))
      as [[Hno Hr] | (l & r & Hs & Hno & Hr)].
    + destruct (Ascii.eqb d c) eqn:E.
      * right. apply Ascii.eqb_eq in E. subst d.
        exists "", s. simpl. repeat split; [assumption | lia].
      * left. now split.
    + right. exists (String d l), r. simpl. subst s. repeat split; [assumption | lia].
Qed.

Lemma substring_all (s : string) : substring 0 (String.length s) s = s.
Proof. induction s as [|c s IH]; simpl; congruence. Qed.

Lemma substring_prefix (l r : string) : substring 0 (String.length l) (l ++ r) = l.
Proof.
  induction l as [|c l IH]; simpl; [now destruct r | congruence].
Qed.

Lemma substring_skip (l r : string) (m : nat) :
  substring (String.length l) m (l ++ r) = substring 0 m r.
Proof. induction l as [|c l IH]; simpl; [reflexivity | exact IH]. Qed.

Lemma take_append (l r : string) : take (Z.of_nat (String.length l)) (l ++ r) = l.
Proof. unfold take. rewrite Nat2Z.id. apply substring_prefix. Qed.

Lemma drop_append (l r : string) : drop (Z.of_nat (String.length l)) (l ++ r) = r.
Proof.
  unfold drop. rewrite Nat2Z.id, substring_skip, length_append.
  replace (String.length l + String.length r - String.length l)%nat
    with (String.length r) by lia.
  apply substring_all.
Qed.

Lemma append_empty_r (s : string) : s ++ "" = s.
Proof. induction s as [|c s IH]; simpl; congruence. Qed.

Lemma append_assoc (a b c : string) : (a ++ b) ++ c = a ++ (b ++ c).
Proof. induction a as [|x a IH]; simpl; congruence. Qed.

(** [basename] is the end of the path, and holds no slash. *)
Lemma basename_suffix (p : string) :
  (exists prefix, p = prefix ++ basename p) /\ contains "/" (basename p) = false.
Proof.
  unfold basename, rfind.
  destruct (rfind_from_cases "/" p 0 (-1)) as [[Hno ->] | (l & r & Hp & Hno & ->)].
  - change (drop (-1 + 1) p) with (drop (Z.of_nat (String.length "")) ("" ++ p)).
    rewrite (drop_append "" p). split; [now exists "" | assumption].
  - subst p.
    replace (0 + Z.of_nat (String.length l) + 1)
      with (Z.of_nat (String.length (l ++ "/")))
      by (rewrite length_append; simpl; lia).
    change (String "/" r) with ("/" ++ r). rewrite <- append_assoc, drop_append.
    split; [now exists (l ++ "/") | assumption].
Qed.

Lemma rfind_lower (c : ascii) (s : string) : -1 <= rfind c s.
Proof.
  unfold rfind.
  destruct (rfind_from_cases c s 0 (-1)) as [[_ ->] | (l & r & _ & _ & ->)]; lia.
Qed.

(** [splitext] cuts its argument in two; the second part is empty, or a dot
    followed by characters other than the dot. *)
Lemma splitext_parts (p : string) :
  fst (splitext p) ++ snd (splitext p) = p /\
  (splitext p = (p, "")
   \/ exists r, snd (splitext p) = String "." r /\ contains "." r = false).
Proof.
  unfold splitext.
  set (sepIndex := rfind "/" p). set (dotIndex := rfind "." p).
  destruct ((dotIndex >? sepIndex)
            && has_non_dot p (Z.to_nat (sepIndex + 1))
                           (Z.to_nat (dotIndex - (sepIndex + 1)))) eqn:E; simpl.
  - apply andb_true_iff in E. destruct E as [E _].
    apply Z.gtb_lt in E. pose proof (rfind_lower "/" p) as Hsep.
    fold sepIndex in Hsep. unfold dotIndex, rfind in *.
    destruct (rfind_from_cases "." p 0 (-1)) as [[_ Hr] | (l & r & Hp & Hno & Hr)];
      rewrite Hr in *; [lia|].
    subst p. simpl (0 + _). rewrite take_append, drop_append.
    split; [reflexivity|]. right. now exists r.
  - split; [apply append_empty_r | now left].
Qed.

Lemma lstrip_dot_without_dot (s : string) :
  contains "." s = false -> lstrip_dot s = s.
Proof.
  destruct s as [|c s]; simpl; [reflexivity|].
  intros H. apply orb_false_iff in H. destruct H as [H _].
  unfold is_dot. now rewrite H.
Qed.

End Paths.

(** X8.  For a file that decodes, the path fields of the mapping fit
    together: [basename] is the end of [filepath] and holds no slash;
    [extension] holds no dot at all; and [basename] is [filename] alone
    (with an empty [extension]) or [filename], a dot and [extension]. *)
Theorem details_path_fields (env : Env) (filepath : string) (a : AudioSegment)
    (size : Z) (t : trace) :
  from_file env filepath = Ok a ->
  getsize env filepath = Ok size ->
  exists (d : AudioDetails.FileDetails) (b f x : string),
    AudioDetails.get_audio_details env filepath t = (Ok d, t) /\
    AudioDetails.lookup "filepath" d = Some (PyStr filepath) /\
    AudioDetails.lookup "basename" d = Some (PyStr b) /\
    AudioDetails.lookup "filename" d = Some (PyStr f) /\
    AudioDetails.lookup "extension" d = Some (PyStr x) /\
    (exists prefix, filepath = prefix ++ b) /\
    Argparse.contains "/" b = false /\
    Argparse.contains "." x = false /\
    ((b = f /\ x = "") \/ b = f ++ "." ++ x).
Proof.
  intros Ha Hs.
  unfold AudioDetails.get_audio_details, bind, lift, ret. rewrite Ha.
  destruct (basename_suffix filepath) as [Hpre Hslash].
  destruct (splitext_parts (basename filepath)) as [Hcat Hext].
  destruct (splitext (basename filepath)) as [filename extension] eqn:E.
  rewrite Hs. simpl in Hcat, Hext.
  eexists. exists (basename filepath), filename, (lstrip_dot extension).
  split; [reflexivity|].
  repeat (split; [first [reflexivity | assumption]|]).
  destruct Hext as [Hnone | (r & Hr & Hno)].
  - inversion Hnone; subst. split; [reflexivity|]. now left.
  - subst extension. simpl.
    rewrite (lstrip_dot_without_dot r Hno). split; [exact Hno|].
    right. now rewrite <- Hcat.
Qed.

Lemma details_path_fields_witness :
  exists d,
    AudioDetails.get_audio_details Sample.env "/in/song.tar.gz" [] = (Ok d, []) /\
    AudioDetails.lookup "basename" d = Some (PyStr "song.tar.gz") /\
    AudioDetails.lookup "filename" d = Some (PyStr "song.tar") /\
    AudioDetails.lookup "extension" d = Some (PyStr "gz").
Proof.
  destruct (details_path_fields Sample.env "/in/song.tar.gz" Sample.ten_seconds
              1024000 [] eq_refl eq_refl) as (d & b & f & x & Hd & _).
  exists d. split; [exact Hd|].
  vm_compute in Hd. inversion Hd; subst d. repeat split.
Defined.

(** * Further properties of the commands *)

(** X9.  On an accepted command line whose file decodes, the detail command
    writes eleven [key:value] lines, for [filepath], [dirpath], [basename],
    [filename], [extension], [mime_type], [filesize], [duration], [bit_rate],
    [sample_rate] and [channels] in this order, exits with status 0 and
    exports nothing. *)
Theorem details_command_lines (env : Env) (argv : list string)
    (args : Argparse.Namespace) (a : AudioSegment) (size : Z) (t : trace) :
  Argparse.parse_args Command.details_parser argv = Argparse.Parsed args ->
  from_file env (Command.as_str (Argparse.get "infile" args)) = Ok a ->
  getsize env (Command.as_str (Argparse.get "infile" args)) = Ok size ->
  let run := Command.main_details env argv t in
  Command.status (fst run) = 0 /\
  map Observe.line_key (Command.stdout (fst run))
  = map Some ["filepath"; "dirpath"; "basename"; "filename"; "extension";
              "mime_type"; "filesize"; "duration"; "bit_rate"; "sample_rate";
              "channels"] /\
  snd run = t.
Proof.
  intros Hp Ha Hs run. unfold run, Command.main_details. rewrite Hp.
  unfold Command.try_exit, AudioDetails.get_audio_details, bind, lift, ret.
  rewrite Ha.
  destruct (splitext (basename (Command.as_str (Argparse.get "infile" args)))).
  rewrite Hs. repeat split.
Qed.

Lemma details_command_lines_witness :
  exists args,
    Argparse.parse_args Command.details_parser ["--infile"; "/in/song.mp3"]
    = Argparse.Parsed args /\
    Command.status (fst (Command.main_details Sample.env
                           ["--infile"; "/in/song.mp3"] [])) = 0.
Proof.
  eexists. split; [reflexivity|].
  exact (proj1 (details_command_lines Sample.env ["--infile"; "/in/song.mp3"] _
                  Sample.ten_seconds 1024000 [] eq_refl eq_refl eq_refl)).
Defined.

Section PrintedPaths.
Import Run.

Lemma exported_paths_app (t1 t2 : trace) :
  Observe.exported_paths (t1 ++ t2)%list
  = (Observe.exported_paths t1 ++ Observe.exported_paths t2)%list.
Proof.
  induction t1 as [|[c p f|r h] t1 IH]; simpl; [reflexivity | now rewrite IH | exact IH].
Qed.

Lemma exported_paths_of_run (env : Env) (infile directory : string)
    (a : AudioSegment) (ms : Z) (l : list Z) :
  Observe.exported_paths (map (export_of env infile directory a ms) l)
  = map (path_of env infile directory) l.
Proof. induction l as [|i l IH]; simpl; [reflexivity | now rewrite IH]. Qed.

End PrintedPaths.

(** X10.  When the splitter command exits with status 0 on an accepted
    command line, the lines it printed are exactly the paths of the files
    that this run exported, in the order of the exports, and they are
    pairwise distinct. *)
Theorem splitter_command_prints_exports (env : Env) (argv : list string)
    (args : Argparse.Namespace) (t : trace) :
  Argparse.parse_args Command.splitter_parser argv = Argparse.Parsed args ->
  let run := Command.main_splitter env argv t in
  Command.status (fst run) = 0 ->
  exists exports,
    snd run = (t ++ exports)%list /\
    Command.stdout (fst run) = map Command.Text (Observe.exported_paths exports) /\
    NoDup (Observe.exported_paths exports).
Proof.
  intros Hp run. unfold run, Command.main_splitter. rewrite Hp.
  unfold Command.try_exit.
  destruct (AudioSplitter.split_file_by_size env _ _ _ t) as [[chunks|e] t'] eqn:Hrun;
    simpl; [intros _ | discriminate].
  destruct (split_ok_inv _ _ _ _ _ _ _ Hrun) as (a & size & ms & n & Ha & Hs & Hplan).
  rewrite (split_with_plan _ _ _ a size _ ms n t Ha Hs Hplan) in Hrun.
  apply export_chunks_ok in Hrun. destruct Hrun as [Hc Ht]. simpl in Hc.
  eexists. split; [exact Ht|].
  rewrite exported_paths_of_run, <- Hc. split; [reflexivity|].
  subst chunks. apply Injective_map_NoDup; [|apply indices_NoDup].
  intros i j. apply chunk_path_inj.
Qed.

Lemma splitter_command_prints_exports_witness :
  let argv := ["--infile"; "song.mp3"; "--tmp_dir"; "/tmp/"; "--chunk_size"; "4000"] in
  Command.status (fst (Command.main_splitter Sample.env argv [])) = 0 /\
  exists exports,
    snd (Command.main_splitter Sample.env argv []) = exports /\
    Command.stdout (fst (Command.main_splitter Sample.env argv []))
    = map Command.Text (Observe.exported_paths exports).
Proof.
  intros argv. split; [reflexivity|].
  destruct (splitter_command_prints_exports Sample.env argv _ [] eq_refl eq_refl)
    as (exports & Ht & Hout & _).
  exists exports. split; assumption.
Defined.

(** X11.  On an accepted command line whose reference or hypothesis is the
    empty string, the error-rate command prints the integer 100, exits with
    status 0 and does not call the aligner. *)
Theorem wer_command_empty_argument (env : Env) (argv : list string)
    (args : Argparse.Namespace) (t : trace) :
  Argparse.parse_args Command.wer_parser argv = Argparse.Parsed args ->
  Argparse.get "reference" args = PyStr "" \/ Argparse.get "hypothesis" args = PyStr "" ->
  Command.main_wer env argv t
  = (Command.exit_with [Command.Value (PyInt 100)] 0, t).
Proof.
  intros Hp Hempty. unfold Command.main_wer. rewrite Hp.
  unfold Command.try_exit, SttErrorRate.compute_wer.
  destruct Hempty as [-> | ->]; simpl; [reflexivity|].
  now rewrite orb_true_r.
Qed.

Lemma wer_command_empty_argument_witness :
  Command.main_wer Sample.env ["--reference"; "the cat sat"; "--hypothesis"; ""] []
  = (Command.exit_with [Command.Value (PyInt 100)] 0, []).
Proof.
  exact (wer_command_empty_argument Sample.env
           ["--reference"; "the cat sat"; "--hypothesis"; ""] _ []
           eq_refl (or_intror eq_refl)).
Defined.
